(** * onnxblock/checkpoint_utils.py: the checkpoint wrappers

    A shallow embedding of [save_checkpoint] and [load_checkpoint] from
    [orttraining/python/training/onnxblock/checkpoint_utils.py].

    The two functions are glue around two pybind entry points imported as
    [_internal_save_checkpoint] and [_internal_load_checkpoint].  Their
    bodies are not Python and belong to the compiled runtime, so they are
    taken as parameters of the development (class [Runtime]); the same
    holds for the protobuf method [SerializeToString], which may raise.
    What is modelled in full is what the Python code does around them:
    the [None] guard, the tuple unpacking, the two list comprehensions
    with the iterator protocol they run on the caller's objects, the order
    of the arguments, and which exceptions leave the function. *)

From Stdlib Require Import Strings.Byte.
From stdpp Require Import base option list strings gmap.

(** ** Python values *)

(** Byte strings ([bytes]). *)
Definition bytes : Type := list byte.

(** References to heap-allocated (mutable) objects. *)
Definition loc : Type := positive.

(** The Python values the two functions can be handed.  Lists and tuples
    are carried by value: the code never mutates one, it only rebinds
    local names to freshly built lists.  A [str] is a sequence of
    characters, each below code point 256.  Everything with identity and
    mutable state (a protobuf message, a one-shot iterator, a model) is a
    [VRef] into the heap; a reference the heap holds nothing at behaves
    like a plain object. *)
#[warnings="-register-all"]
Inductive value : Type :=
  | VNone
  | VInt (z : Z)
  | VStr (s : string)
  | VBytes (b : bytes)
  | VTuple (xs : list value)
  | VList (xs : list value)
  | VRef (l : loc).

Arguments VRef l%_positive.

(** Exceptions.  [RuntimeError] carries its message, the one exception the
    source raises itself.  [TypeError], [ValueError] and [AttributeError]
    are the ones the interpreter raises while running the body; their
    message texts are the interpreter's and are not modelled.  A native
    binding, a serializer and a caller's iterator may raise any of these
    and any other class ([OtherError], protobuf's [EncodeError] for
    one). *)
Inductive exn : Type :=
  | RuntimeError (msg : string)
  | TypeError
  | ValueError
  | AttributeError
  | OtherError (cls msg : string).

(** One entry per call into the native layer, with the arguments in the
    order they were passed. *)
Inductive event : Type :=
  | SaveCall (trainable_params non_trainable_params path_to_checkpoint : value)
  | LoadCall (path_to_checkpoint : value).

(** ** The native runtime *)

(** What the Python file imports but does not define.  A binding receives
    its Python arguments and the state of the native side (file system
    and runtime), and returns either an exception or a Python value,
    together with the new native state; it has no hand on the Python
    heap.  [SerializeToString] is the protobuf method: on a message it
    returns a byte string or raises (a message that is not initialized
    raises [EncodeError]); it changes nothing. *)
Class Runtime : Type := {
  Msg : Type;
  SerializeToString : Msg → exn + bytes;
  NativeState : Type;
  _internal_save_checkpoint :
    value → value → value → NativeState → (exn + value) * NativeState;
  _internal_load_checkpoint :
    value → NativeState → (exn + value) * NativeState
}.

Section Embedding.
Context `{RT : Runtime}.

(** Heap objects: a protobuf message, which has [SerializeToString]; a
    one-shot iterator (a generator, [iter(...)]) holding the items it
    still has to yield and, when it ends by raising instead of stopping,
    the exception; or an object with neither that method nor an
    iterator. *)
Inductive object : Type :=
  | OMsg (m : Msg)
  | OIter (rest : list value) (stop : option exn)
  | OPlain.

(** The state a call runs in: the Python heap, the native state, and the
    log of native calls made so far (oldest first). *)
Record world : Type := World {
  heap : gmap loc object;
  native : NativeState;
  trace : list event
}.

(** The world with the object at [l] replaced. *)
Definition set_object (l : loc) (o : object) (w : world) : world :=
  World (<[l := o]> (heap w)) (native w) (trace w).

(** ** Computations: state and exceptions *)

Definition Py (A : Type) : Type := world → (exn + A) * world.

#[global] Instance Py_ret : MRet Py := λ A (a : A) w, (inr a, w).

#[global] Instance Py_bind : MBind Py := λ A B (f : A → Py B) (c : Py A) w,
  match c w with
  | (inl e, w') => (inl e, w')
  | (inr a, w') => f a w'
  end.

(** [raise e]: nothing after it runs, the world stays as it is. *)
Definition raise {A : Type} (e : exn) : Py A := λ w, (inl e, w).

(** ** Calls into the native layer *)

Definition native_save (t nt p : value) : Py value := λ w,
  let '(r, n) := _internal_save_checkpoint t nt p (native w) in
  (r, World (heap w) n (trace w ++ [SaveCall t nt p])).

Definition native_load (p : value) : Py value := λ w,
  let '(r, n) := _internal_load_checkpoint p (native w) in
  (r, World (heap w) n (trace w ++ [LoadCall p])).

(** ** The interpreter's part *)

(** [x is None]. *)
Definition is_None (v : value) : bool :=
  match v with VNone => true | _ => false end.

(** The elements a by-value container yields, [None] for every other
    value.  Iterating a [str] yields its characters as one-character
    strings, iterating [bytes] yields integers. *)
Definition elements_of (v : value) : option (list value) :=
  match v with
  | VTuple xs | VList xs => Some xs
  | VStr s => Some ((λ c, VStr (String c EmptyString)) <$> String.list_ascii_of_string s)
  | VBytes b => Some ((λ x, VInt (Z.of_N (Byte.to_N x))) <$> b)
  | VNone | VInt _ | VRef _ => None
  end.

(** What [iter(v)] hands back: a fresh iterator over the items of a
    container, or, for a one-shot iterator, that object itself. *)
Inductive iterator : Type :=
  | Items (xs : list value)
  | Object (l : loc).

(** [v] is a one-shot iterator of the heap [h]. *)
Definition is_iterator (h : gmap loc object) (v : value) : bool :=
  match v with
  | VRef l => match h !! l with Some (OIter _ _) => true | _ => false end
  | _ => false
  end.

(** [iter(v)]: [TypeError] when [v] is not iterable. *)
Definition iterate (v : value) : Py iterator := λ w,
  match elements_of v with
  | Some xs => (inr (Items xs), w)
  | None =>
      match v with
      | VRef l => if is_iterator (heap w) v then (inr (Object l), w)
                  else (inl TypeError, w)
      | _ => (inl TypeError, w)
      end
  end.

(** [next] on the one-shot iterator at [l]: its first item, which it then
    no longer holds; [None] when it stops; its exception when it ends by
    raising, after which it is exhausted. *)
Definition next_of (l : loc) : Py (option value) := λ w,
  match heap w !! l with
  | Some (OIter (x :: rest) stop) => (inr (Some x), set_object l (OIter rest stop) w)
  | Some (OIter [] (Some e)) => (inl e, set_object l (OIter [] None) w)
  | _ => (inr None, w)
  end.

(** [a, b = v].  [TypeError] when [v] is not iterable, [ValueError] when
    it does not yield exactly two elements.  On a one-shot iterator the
    interpreter asks for a third item after the second, to see that there
    is none. *)
Definition unpack2 (v : value) : Py (value * value) :=
  it ← iterate v;
  match it with
  | Items [a; b] => mret (a, b)
  | Items _ => raise ValueError
  | Object l =>
      first ← next_of l;
      match first with
      | None => raise ValueError
      | Some a =>
          second ← next_of l;
          match second with
          | None => raise ValueError
          | Some b =>
              third ← next_of l;
              match third with
              | None => mret (a, b)
              | Some _ => raise ValueError
              end
          end
      end
  end.

(** The message a value denotes, [None] when the value is not a protobuf
    message: no other value has a [SerializeToString] attribute. *)
Definition message_of (h : gmap loc object) (param : value) : option Msg :=
  match param with
  | VRef l =>
      match h !! l with
      | Some (OMsg m) => Some m
      | _ => None
      end
  | _ => None
  end.

(** [param.SerializeToString()]: the attribute lookup raises
    [AttributeError] on anything but a message; on a message the call
    returns its serialization as [bytes], or raises what the serializer
    raises; it changes nothing. *)
Definition call_SerializeToString (param : value) : Py value := λ w,
  match message_of (heap w) param with
  | Some m =>
      match SerializeToString m with
      | inr b => (inr (VBytes b), w)
      | inl e => (inl e, w)
      end
  | None => (inl AttributeError, w)
  end.

(** The loop of a comprehension over the one-shot iterator at [l], which
    held [rest] when the loop began: each round takes the next item off
    the iterator, then evaluates [f] on it; the round after the last item
    ends the loop, by the iterator stopping or raising.  [f] is a method
    call on the item and leaves the iterator alone. *)
Fixpoint drain (f : value → Py value) (l : loc) (stop : option exn)
    (rest : list value) : Py (list value) :=
  match rest with
  | [] => λ w,
      match stop with
      | None => (inr [], set_object l (OIter [] None) w)
      | Some e => (inl e, set_object l (OIter [] None) w)
      end
  | x :: rest' =>
      y ← (λ w, f x (set_object l (OIter rest' stop) w));
      ys ← drain f l stop rest';
      mret (y :: ys)
  end.

(** [[f(param) for param in v]]: a new list, built left to right; the
    first exception ends the comprehension. *)
Definition list_comp (f : value → Py value) (v : value) : Py value :=
  it ← iterate v;
  ys ← match it with
       | Items xs => mapM f xs
       | Object l => λ w,
           match heap w !! l with
           | Some (OIter rest stop) => drain f l stop rest w
           | _ => (inr [], w)
           end
       end;
  mret (VList ys).

(** ** The two functions of the file *)

(** Lines 9-20. *)
Definition save_checkpoint (parameters path_to_checkpoint : value) : Py value :=
  if is_None parameters then
    raise (RuntimeError "No checkpoint parameters provided.")
  else
    '(trainable_params, non_trainable_params) ← unpack2 parameters;
    trainable_params ← list_comp call_SerializeToString trainable_params;
    non_trainable_params ← list_comp call_SerializeToString non_trainable_params;
    _ ← native_save trainable_params non_trainable_params path_to_checkpoint;
    mret VNone.

(** Lines 23-27.  The body binds the local name [parameters] and ends; a
    function that falls off its end returns [None]. *)
Definition load_checkpoint (model path_to_checkpoint : value) : Py value :=
  parameters ← native_load path_to_checkpoint;
  mret VNone.

(** ** Vocabulary of the statements *)

(** The messages a by-value container consists of, when all its elements
    are messages. *)
Definition messages_of (h : gmap loc object) (v : value) : option (list Msg) :=
  xs ← elements_of v; mapM (message_of h) xs.

(** [parameters] unpacks into a pair of lists (or tuples) of protobuf
    messages: the trainable ones and the non-trainable ones. *)
Definition unpack_messages (h : gmap loc object) (parameters : value)
    : option (list Msg * list Msg) :=
  match elements_of parameters with
  | Some [a; b] =>
      match messages_of h a, messages_of h b with
      | Some tms, Some nms => Some (tms, nms)
      | _, _ => None
      end
  | _ => None
  end.

(** The byte string [SerializeToString] returns on [m], when it returns. *)
Definition serialization (m : Msg) : option value :=
  match SerializeToString m with
  | inr b => Some (VBytes b)
  | inl _ => None
  end.

(** What [param.SerializeToString()] comes to in the heap [h]: the value
    returned or the exception raised. *)
Definition call_result (h : gmap loc object) (param : value) : exn + value :=
  match message_of h param with
  | Some m =>
      match SerializeToString m with
      | inr b => inr (VBytes b)
      | inl e => inl e
      end
  | None => inl AttributeError
  end.

(** The value [param.SerializeToString()] returns, when it returns. *)
Definition returned (h : gmap loc object) (param : value) : option value :=
  match call_result h param with
  | inr y => Some y
  | inl _ => None
  end.

(** The calls on the items of [xs], in order: the values returned, or the
    exception of the first call that raises. *)
Fixpoint serialize_items (h : gmap loc object) (xs : list value)
    : exn + list value :=
  match xs with
  | [] => inr []
  | x :: xs' =>
      match call_result h x with
      | inl e => inl e
      | inr y =>
          match serialize_items h xs' with
          | inl e => inl e
          | inr ys => inr (y :: ys)
          end
      end
  end.

(** [ts] is [xs] serialized in place: as long as [xs], and at every index
    the byte string [SerializeToString] returned on the message [xs] has
    there. *)
Definition serialized_at (h : gmap loc object) (xs ts : list value) : Prop :=
  length ts = length xs ∧
  ∀ i x, xs !! i = Some x →
    ∃ m b, message_of h x = Some m ∧ SerializeToString m = inr b ∧
           ts !! i = Some (VBytes b).

(** The outcome of a body that ends in one native save call on [t], [nt]
    and [p] whose value it drops: an exception of the binding is the
    outcome as it is, a normal return becomes [None]. *)
Definition delegated (t nt p : value) (w : world) : (exn + value) * world :=
  let '(r, n) := _internal_save_checkpoint t nt p (native w) in
  (match r with inl e => inl e | inr _ => inr VNone end,
   World (heap w) n (trace w ++ [SaveCall t nt p])).

(** A computation that stays on the Python side: it leaves the native
    state and the log of native calls as they were. *)
Definition quiet {A : Type} (c : Py A) : Prop :=
  ∀ w, native (c w).2 = native w ∧ trace (c w).2 = trace w.


(** The reading of the save as unconditional on lists of messages: any
    [parameters] that unpacks into two lists of messages reaches the
    native call. *)
Definition messages_always_saved : Prop :=
  ∀ parameters path w (tms nms : list Msg),
    unpack_messages (heap w) parameters = Some (tms, nms) →
    ∃ t nt, trace (save_checkpoint parameters path w).2 =
            trace w ++ [SaveCall t nt path].

End Embedding.

(** ** A runtime to run the functions on *)

(** An in-memory stand-in for the compiled runtime: a message is reduced
    to its name, its serialization is the bytes of the name, and a message
    without a name is not initialized, so that serializing it raises
    [EncodeError]; the native state maps a path to the two lists last
    saved there.  Both bindings reject a path that is not a [str];
    loading a path nothing was saved to fails. *)
Module Mem.

Definition serialize (name : string) : exn + bytes :=
  match name with
  | EmptyString => inl (OtherError "EncodeError" "Message is missing required fields")
  | _ => inr (String.list_byte_of_string name)
  end.

Definition save (t nt p : value) (fs : gmap string (value * value))
    : (exn + value) * gmap string (value * value) :=
  match p with
  | VStr path => (inr VNone, <[path := (t, nt)]> fs)
  | _ => (inl TypeError, fs)
  end.

Definition load (p : value) (fs : gmap string (value * value))
    : (exn + value) * gmap string (value * value) :=
  match p with
  | VStr path =>
      match fs !! path with
      | Some (t, nt) => (inr (VTuple [t; nt]), fs)
      | None => (inl (RuntimeError "checkpoint not found"), fs)
      end
  | _ => (inl TypeError, fs)
  end.

Definition runtime : Runtime := {|
  Msg := string;
  SerializeToString := serialize;
  NativeState := gmap string (value * value);
  _internal_save_checkpoint := save;
  _internal_load_checkpoint := load
|}.

(** Three messages ([w], [b], [g]), an object that is not one, a message
    that is not initialized, and three one-shot iterators. *)
Definition objects : gmap loc (@object runtime) :=
  <[1%positive := OMsg (RT := runtime) "w"]>
    (<[2%positive := OMsg (RT := runtime) "b"]>
       (<[3%positive := OPlain]>
          (<[4%positive := OMsg (RT := runtime) "g"]>
             (<[5%positive := OMsg (RT := runtime) ""]>
                (<[6%positive := OIter [VRef 1; VRef 4] None]>
                   (<[7%positive := OIter [VRef 2] None]>
                      (<[8%positive := OIter [VRef 1; VRef 2; VRef 4; VRef 3] None]>
                         ∅))))))).

(** A fresh process: nothing saved, no native call made. *)
Definition start : @world runtime := World objects ∅ [].

(** [([w], [b])]: one trainable and one non-trainable parameter. *)
Definition params : value :=
  VTuple [VList [VRef 1]; VList [VRef 2]].

(** [([w, b, g], [g, w])]: several parameters in each list. *)
Definition params3 : value :=
  VTuple [VList [VRef 1; VRef 2; VRef 4]; VList [VRef 4; VRef 1]].

(** [([w, m], [b])] with [m] not initialized. *)
Definition params_uninitialized : value :=
  VTuple [VList [VRef 1; VRef 5]; VList [VRef 2]].

(** [(iter([w, g]), iter([b]))]. *)
Definition params_iterators : value :=
  VTuple [VRef 6; VRef 7].

(** A checkpoint path, and the serializations of the three parameters. *)
Definition ckpt : value := VStr "ckpt".
Definition w_bytes : value := VList [VBytes ["w"%byte]].
Definition b_bytes : value := VList [VBytes ["b"%byte]].
Definition wbg_bytes : value :=
  VList [VBytes ["w"%byte]; VBytes ["b"%byte]; VBytes ["g"%byte]].
Definition gw_bytes : value := VList [VBytes ["g"%byte]; VBytes ["w"%byte]].
Definition wg_bytes : value := VList [VBytes ["w"%byte]; VBytes ["g"%byte]].

(** The process after [params] was saved to [ckpt]. *)
Definition saved : @world runtime :=
  (save_checkpoint params ckpt start).2.

End Mem.

(** * Properties *)

Section Properties.
Context `{RT : Runtime}.
Implicit Types (w : world) (v model path parameters : value) (e : exn).
Implicit Types (h : gmap loc object) (l : loc).

(** ** Equations of the monad and of the helpers *)

Lemma Py_bind_run {A B : Type} (c : Py A) (f : A → Py B) w :
  (c ≫= f) w =
  match c w with
  | (inl e, w') => (inl e, w')
  | (inr a, w') => f a w'
  end.
Proof. reflexivity. Qed.

Lemma Py_ret_run {A : Type} (a : A) w : (mret a : Py A) w = (inr a, w).
Proof. reflexivity. Qed.

Lemma call_SerializeToString_run v w :
  call_SerializeToString v w = (call_result (heap w) v, w).
Proof.
  unfold call_SerializeToString, call_result.
  destruct (message_of (heap w) v) as [m|]; [|done].
  by destruct (SerializeToString m).
Qed.

(** ** By-value containers *)

Lemma mapM_call_SerializeToString (xs : list value) w :
  mapM call_SerializeToString xs w = (serialize_items (heap w) xs, w).
Proof.
  induction xs as [|x xs IH]; [done|].
  cbn [mapM serialize_items].
  rewrite Py_bind_run, call_SerializeToString_run.
  destruct (call_result (heap w) x) as [e|y]; [done|].
  rewrite Py_bind_run, IH.
  by destruct (serialize_items (heap w) xs).
Qed.

Lemma iterate_static v (xs : list value) w :
  elements_of v = Some xs → iterate v w = (inr (Items xs), w).
Proof. unfold iterate. by intros ->. Qed.

Lemma unpack2_static v (xs : list value) w :
  elements_of v = Some xs →
  unpack2 v w =
  match xs with
  | [a; b] => (inr (a, b), w)
  | _ => (inl ValueError, w)
  end.
Proof.
  intros Hv. unfold unpack2. rewrite Py_bind_run, (iterate_static _ _ _ Hv).
  by destruct xs as [|a [|b [|c xs]]].
Qed.

Lemma list_comp_static v (xs : list value) w :
  elements_of v = Some xs →
  list_comp call_SerializeToString v w =
  match serialize_items (heap w) xs with
  | inl e => (inl e, w)
  | inr ys => (inr (VList ys), w)
  end.
Proof.
  intros Hv. unfold list_comp.
  rewrite Py_bind_run, (iterate_static _ _ _ Hv), Py_bind_run.
  rewrite mapM_call_SerializeToString.
  by destruct (serialize_items (heap w) xs).
Qed.

Lemma elements_of_not_None v (xs : list value) :
  elements_of v = Some xs → is_None v = false.
Proof. by destruct v. Qed.

Lemma native_save_run t nt p w :
  (native_save t nt p ≫= λ _, mret VNone) w = delegated t nt p w.
Proof.
  rewrite Py_bind_run. unfold native_save, delegated.
  by destruct (_internal_save_checkpoint t nt p (native w)) as [[e|r] n].
Qed.

(** The body of [save_checkpoint] on a list or tuple of two lists or
    tuples, statement by statement. *)
Lemma save_checkpoint_static parameters path w (a b : value) (xs ys : list value) :
  elements_of parameters = Some [a; b] →
  elements_of a = Some xs →
  elements_of b = Some ys →
  save_checkpoint parameters path w =
  match serialize_items (heap w) xs with
  | inl e => (inl e, w)
  | inr ts =>
      match serialize_items (heap w) ys with
      | inl e => (inl e, w)
      | inr ns => delegated (VList ts) (VList ns) path w
      end
  end.
Proof.
  intros Hp Ha Hb. unfold save_checkpoint.
  rewrite (elements_of_not_None _ _ Hp).
  rewrite Py_bind_run, (unpack2_static _ _ _ Hp).
  rewrite Py_bind_run, (list_comp_static _ _ _ Ha).
  destruct (serialize_items (heap w) xs) as [e|ts]; [done|].
  rewrite Py_bind_run, (list_comp_static _ _ _ Hb).
  destruct (serialize_items (heap w) ys) as [e|ns]; [done|].
  apply native_save_run.
Qed.

(** ** Serializing lists of messages *)

Lemma returned_inr h v (y : value) :
  call_result h v = inr y → returned h v = Some y.
Proof. unfold returned. by intros ->. Qed.

Lemma returned_inl h v e : call_result h v = inl e → returned h v = None.
Proof. unfold returned. by intros ->. Qed.

Lemma serialize_items_returned h (xs ts : list value) :
  serialize_items h xs = inr ts ↔ mapM (returned h) xs = Some ts.
Proof.
  revert ts. induction xs as [|x xs IH]; intros ts; simpl.
  - split; intros [= <-]; done.
  - destruct (call_result h x) as [e|y] eqn:Hx.
    { by rewrite (returned_inl _ _ _ Hx). }
    rewrite (returned_inr _ _ _ Hx). simpl.
    destruct (serialize_items h xs) as [e|ys].
    + destruct (mapM (returned h) xs) as [ys'|]; [|done].
      by pose proof (proj2 (IH ys') eq_refl).
    + rewrite (proj1 (IH ys) eq_refl). simpl.
      split; intros [= <-]; done.
Qed.

Lemma serialize_items_messages h (xs : list value) (ms : list Msg) (ts : list value) :
  mapM (message_of h) xs = Some ms →
  mapM serialization ms = Some ts →
  serialize_items h xs = inr ts.
Proof.
  intros Hms%mapM_Some_1 Hts%mapM_Some_1. revert ts Hts.
  induction Hms as [|x m xs ms Hx _ IH]; intros ts Hts;
    inversion Hts as [|? t ? ts' Hm Hts']; subst; simpl; [done|].
  unfold call_result. rewrite Hx. unfold serialization in Hm.
  destruct (SerializeToString m) as [e|b]; [done|].
  injection Hm as <-. by rewrite (IH _ Hts').
Qed.

Lemma serialized_at_items h (xs ts : list value) :
  serialize_items h xs = inr ts → serialized_at h xs ts.
Proof.
  revert ts. induction xs as [|x xs IH]; intros ts; simpl.
  - intros [= <-]. split; [done|]. by intros i x' Hx.
  - unfold call_result.
    destruct (message_of h x) as [m|] eqn:Hm; [|done].
    destruct (SerializeToString m) as [e|b] eqn:Hb; [done|].
    destruct (serialize_items h xs) as [e|ys]; [done|].
    intros [= <-]. destruct (IH ys eq_refl) as [Hlen Hidx].
    split; [simpl; by rewrite Hlen|].
    intros [|i] x' Hx; simpl in *.
    + injection Hx as <-. eauto.
    + eauto.
Qed.

(** ** What stays on the Python side *)

Lemma quiet_ret {A : Type} (a : A) : quiet (mret a : Py A).
Proof. by intros w. Qed.

Lemma quiet_raise {A : Type} e : quiet (raise e : Py A).
Proof. by intros w. Qed.

Lemma quiet_bind {A B : Type} (c : Py A) (f : A → Py B) :
  quiet c → (∀ a, quiet (f a)) → quiet (c ≫= f).
Proof.
  intros Hc Hf w. rewrite Py_bind_run. destruct (Hc w) as [Hn Ht].
  destruct (c w) as [[e|a] w1]; simpl in *; [done|].
  destruct (Hf a w1) as [Hn' Ht']. by rewrite Hn', Ht'.
Qed.

Lemma quiet_iterate v : quiet (iterate v).
Proof.
  intros w. unfold iterate.
  destruct (elements_of v); [done|].
  destruct v; try done. by destruct (is_iterator _ _).
Qed.

Lemma quiet_next_of l : quiet (next_of l).
Proof.
  intros w. unfold next_of.
  by destruct (heap w !! l) as [[m|[|x rest] [e|]|]|].
Qed.

Lemma quiet_call_SerializeToString v : quiet (call_SerializeToString v).
Proof. intros w. by rewrite call_SerializeToString_run. Qed.

Lemma quiet_mapM (f : value → Py value) (xs : list value) :
  (∀ x, quiet (f x)) → quiet (mapM f xs).
Proof.
  intros Hf. induction xs as [|x xs IH]; [by intros w|].
  cbn [mapM]. apply quiet_bind; [done|]. intros y.
  apply quiet_bind; [done|]. intros ys. apply quiet_ret.
Qed.

Lemma quiet_drain (f : value → Py value) l (stop : option exn) (rest : list value) :
  (∀ x, quiet (f x)) → quiet (drain f l stop rest).
Proof.
  intros Hf. induction rest as [|x rest IH]; simpl.
  - intros w. by destruct stop.
  - apply quiet_bind.
    + intros w. apply (Hf x (set_object l (OIter rest stop) w)).
    + intros y. apply quiet_bind; [done|]. intros ys. apply quiet_ret.
Qed.

Lemma quiet_unpack2 v : quiet (unpack2 v).
Proof.
  unfold unpack2. apply quiet_bind; [apply quiet_iterate|].
  intros [[|a [|b [|c xs]]]|l];
    try apply quiet_ret; try apply (quiet_raise ValueError).
  apply quiet_bind; [apply quiet_next_of|].
  intros [a|]; [|apply quiet_raise].
  apply quiet_bind; [apply quiet_next_of|].
  intros [b|]; [|apply quiet_raise].
  apply quiet_bind; [apply quiet_next_of|].
  intros [c|]; [apply quiet_raise|apply quiet_ret].
Qed.

Lemma quiet_list_comp v : quiet (list_comp call_SerializeToString v).
Proof.
  unfold list_comp. apply quiet_bind; [apply quiet_iterate|].
  intros [xs|l]; (apply quiet_bind; [|intros ys; apply quiet_ret]).
  - apply quiet_mapM, quiet_call_SerializeToString.
  - intros w. destruct (heap w !! l) as [[m|rest stop|]|]; try done.
    apply quiet_drain, quiet_call_SerializeToString.
Qed.

(** ** The native call *)

Lemma delegated_trace t nt p w :
  trace (delegated t nt p w).2 = trace w ++ [SaveCall t nt p].
Proof.
  unfold delegated.
  by destruct (_internal_save_checkpoint t nt p (native w)) as [r n].
Qed.

Lemma delegated_heap t nt p w : heap (delegated t nt p w).2 = heap w.
Proof.
  unfold delegated.
  by destruct (_internal_save_checkpoint t nt p (native w)) as [r n].
Qed.

Lemma delegated_native t nt p w :
  native (delegated t nt p w).2 = (_internal_save_checkpoint t nt p (native w)).2.
Proof.
  unfold delegated.
  by destruct (_internal_save_checkpoint t nt p (native w)) as [r n].
Qed.


(** A log never equals itself with one more entry. *)
Lemma trace_grows_ne (tr : list event) (ev : event) : tr ≠ tr ++ [ev].
Proof.
  intros Heq. apply (f_equal length) in Heq.
  rewrite length_app in Heq. simpl in Heq. lia.
Qed.

(** Whatever [parameters] is, the body either raises on the Python side
    or ends in the native call, made in a world that differs from the
    first one in the heap only. *)
Lemma save_checkpoint_cases parameters path w :
  ∃ w1, native w1 = native w ∧ trace w1 = trace w ∧
    ((∃ e, save_checkpoint parameters path w = (inl e, w1)) ∨
     (is_None parameters = false ∧
      ∃ t nt, save_checkpoint parameters path w = delegated t nt path w1)).
Proof.
  unfold save_checkpoint. destruct (is_None parameters).
  { exists w. split_and!; [done..|]. left. by eexists. }
  rewrite Py_bind_run. destruct (quiet_unpack2 parameters w) as [Hn1 Ht1].
  destruct (unpack2 parameters w) as [[e|[a b]] w1]; simpl in *.
  { exists w1. split_and!; [done..|]. left. by eexists. }
  rewrite Py_bind_run. destruct (quiet_list_comp a w1) as [Hn2 Ht2].
  destruct (list_comp call_SerializeToString a w1) as [[e|t] w2]; simpl in *.
  { exists w2. split_and!; [congruence..|]. left. by eexists. }
  rewrite Py_bind_run. destruct (quiet_list_comp b w2) as [Hn3 Ht3].
  destruct (list_comp call_SerializeToString b w2) as [[e|nt] w3]; simpl in *.
  { exists w3. split_and!; [congruence..|]. left. by eexists. }
  exists w3. split_and!; [congruence..|]. right. split; [done|].
  exists t, nt. apply native_save_run.
Qed.

(** ** Lists of messages *)

Lemma unpack_messages_Some h parameters (tms nms : list Msg) :
  unpack_messages h parameters = Some (tms, nms) →
  ∃ a b xs ys,
    elements_of parameters = Some [a; b] ∧
    elements_of a = Some xs ∧ elements_of b = Some ys ∧
    mapM (message_of h) xs = Some tms ∧ mapM (message_of h) ys = Some nms.
Proof.
  unfold unpack_messages, messages_of. intros Hshape.
  destruct (elements_of parameters) as [[|a [|b [|c l]]]|]; try discriminate.
  destruct (elements_of a) as [xs|] eqn:Ha; simpl in Hshape; [|discriminate].
  destruct (mapM (message_of h) xs) as [tms'|] eqn:Hxs; [|discriminate].
  destruct (elements_of b) as [ys|] eqn:Hb; simpl in Hshape; [|discriminate].
  destruct (mapM (message_of h) ys) as [nms'|] eqn:Hys; [|discriminate].
  injection Hshape as -> ->. by exists a, b, xs, ys.
Qed.

(** On two lists of messages that all serialize, the body runs through to
    the native call. *)
Lemma save_checkpoint_shaped parameters path w (tms nms : list Msg)
    (ts ns : list value) :
  unpack_messages (heap w) parameters = Some (tms, nms) →
  mapM serialization tms = Some ts →
  mapM serialization nms = Some ns →
  save_checkpoint parameters path w = delegated (VList ts) (VList ns) path w.
Proof.
  intros (a & b & xs & ys & Hp & Ha & Hb & Hxs & Hys)%unpack_messages_Some Hts Hns.
  rewrite (save_checkpoint_static _ _ _ _ _ _ _ Hp Ha Hb).
  rewrite (serialize_items_messages _ _ _ _ Hxs Hts).
  by rewrite (serialize_items_messages _ _ _ _ Hys Hns).
Qed.

(** ** [save_checkpoint] *)

(** C1. With [parameters=None], [save_checkpoint] raises
    [RuntimeError("No checkpoint parameters provided.")] for every path,
    and does so before any native call: the world it leaves, native state
    and call log included, is the one it started in. *)
Theorem save_checkpoint_None_raises path w :
  save_checkpoint VNone path w =
    (inl (RuntimeError "No checkpoint parameters provided."), w) ∧
  trace (save_checkpoint VNone path w).2 = trace w ∧
  native (save_checkpoint VNone path w).2 = native w.
Proof. done. Qed.

(** C2, as amended.  When [parameters] unpacks into a pair of lists of
    protobuf messages and [SerializeToString] returns on every one of
    them, [save_checkpoint] makes one native save call on the two lists
    of the byte strings returned, in the order of the messages, and the
    path, in the order
    [(trainable_params, non_trainable_params, path_to_checkpoint)]. *)
Theorem save_checkpoint_serializes_then_delegates
    parameters path w (tms nms : list Msg) (ts ns : list value) :
  unpack_messages (heap w) parameters = Some (tms, nms) →
  mapM serialization tms = Some ts →
  mapM serialization nms = Some ns →
  save_checkpoint parameters path w = delegated (VList ts) (VList ns) path w ∧
  trace (save_checkpoint parameters path w).2 =
    trace w ++ [SaveCall (VList ts) (VList ns) path].
Proof.
  intros Hshape Hts Hns.
  rewrite (save_checkpoint_shaped _ _ _ _ _ _ _ Hshape Hts Hns).
  split; [done|]. apply delegated_trace.
Qed.


(** C6. When [save_checkpoint] returns normally it returns [None]; and it
    does so only when [parameters] is not [None] and the one native save
    call it made returned normally. *)
Theorem save_checkpoint_returns_None parameters path w v w' :
  save_checkpoint parameters path w = (inr v, w') →
  v = VNone ∧
  parameters ≠ VNone ∧
  ∃ t nt r,
    _internal_save_checkpoint t nt path (native w) = (inr r, native w') ∧
    trace w' = trace w ++ [SaveCall t nt path].
Proof.
  intros Hrun.
  destruct (save_checkpoint_cases parameters path w)
    as (w1 & Hn & Ht & [[e He]|[Hnone (t & nt & Hd)]]); [congruence|].
  rewrite Hd in Hrun. unfold delegated in Hrun. rewrite Hn, Ht in Hrun.
  destruct (_internal_save_checkpoint t nt path (native w)) as [[e|r] n] eqn:Hnat;
    [discriminate|].
  injection Hrun as <- <-.
  split; [done|]. split; [by intros ->|]. by exists t, nt, r.
Qed.

(** C8. On two parameter lists, whenever [save_checkpoint] reaches the
    native call, each list handed over is the corresponding parameter
    list serialized in place: same length, and at each index the
    serialization of the parameter at that index. *)
Theorem save_checkpoint_preserves_order
    parameters path w (a b : value) (xs ys : list value) t nt p :
  elements_of parameters = Some [a; b] →
  elements_of a = Some xs →
  elements_of b = Some ys →
  trace (save_checkpoint parameters path w).2 = trace w ++ [SaveCall t nt p] →
  ∃ ts ns,
    t = VList ts ∧ nt = VList ns ∧ p = path ∧
    serialized_at (heap w) xs ts ∧ serialized_at (heap w) ys ns.
Proof.
  intros Hp Ha Hb. rewrite (save_checkpoint_static _ _ _ _ _ _ _ Hp Ha Hb).
  destruct (serialize_items (heap w) xs) as [e|ts] eqn:Hts;
    [intros Htrace; by apply trace_grows_ne in Htrace|].
  destruct (serialize_items (heap w) ys) as [e|ns] eqn:Hns;
    [intros Htrace; by apply trace_grows_ne in Htrace|].
  rewrite delegated_trace. intros Htrace.
  apply app_inv_head in Htrace. injection Htrace as <- <- <-.
  exists ts, ns. split_and!; try done; by apply serialized_at_items.
Qed.

(** ** [load_checkpoint] *)

Lemma load_checkpoint_run model path w :
  load_checkpoint model path w =
  let '(r, n) := _internal_load_checkpoint path (native w) in
  (match r with inl e => inl e | inr _ => inr VNone end,
   World (heap w) n (trace w ++ [LoadCall path])).
Proof.
  unfold load_checkpoint. rewrite Py_bind_run. unfold native_load.
  by destruct (_internal_load_checkpoint path (native w)) as [[e|r] n].
Qed.

(** C3. [load_checkpoint] drops what the native load call returned and
    does nothing to the model: the heap, and so whatever object [model]
    refers to, is as before the call; the world it leaves is the one the
    native call left; its own value never is the value the binding
    returned. *)
Theorem load_checkpoint_leaves_model model path w :
  heap (load_checkpoint model path w).2 = heap w ∧
  (load_checkpoint model path w).2 = (native_load path w).2 ∧
  (load_checkpoint model path w).1 =
    match (native_load path w).1 with
    | inl e => inl e
    | inr _ => inr VNone
    end.
Proof.
  rewrite load_checkpoint_run. unfold native_load.
  by destruct (_internal_load_checkpoint path (native w)) as [[e|r] n].
Qed.

(** C5. An exception raised by the native load call leaves
    [load_checkpoint] as it is, after that one call and nothing else. *)
Theorem load_checkpoint_propagates model path w e n :
  _internal_load_checkpoint path (native w) = (inl e, n) →
  load_checkpoint model path w =
    (inl e, World (heap w) n (trace w ++ [LoadCall path])).
Proof. intros Hnat. by rewrite load_checkpoint_run, Hnat. Qed.

(** C7. When the native load call returns a value, [load_checkpoint]
    returns [None], whatever that value was. *)
Theorem load_checkpoint_returns_None model path w r n :
  _internal_load_checkpoint path (native w) = (inr r, n) →
  load_checkpoint model path w =
    (inr VNone, World (heap w) n (trace w ++ [LoadCall path])).
Proof. intros Hnat. by rewrite load_checkpoint_run, Hnat. Qed.

(** C9. [load_checkpoint] does not depend on its [model] argument: run on
    two models, even in two heaps, with the same path, native state and
    call log, it makes the same native call on the same argument, leaves
    the same native state and has the same outcome. *)
Theorem load_checkpoint_ignores_model
    model1 model2 path (h1 h2 : gmap loc object) (n : NativeState)
    (tr : list event) :
  let out1 := load_checkpoint model1 path (World h1 n tr) in
  let out2 := load_checkpoint model2 path (World h2 n tr) in
  out1.1 = out2.1 ∧
  trace out1.2 = tr ++ [LoadCall path] ∧
  trace out2.2 = tr ++ [LoadCall path] ∧
  native out1.2 = native out2.2.
Proof.
  cbv zeta. rewrite !load_checkpoint_run. simpl.
  by destruct (_internal_load_checkpoint path n) as [[e|r] n'].
Qed.

End Properties.

(** * Concrete runs on the in-memory runtime *)

Example run_save :
  save_checkpoint Mem.params Mem.ckpt Mem.start = (inr VNone, Mem.saved) ∧
  trace Mem.saved = [SaveCall Mem.w_bytes Mem.b_bytes Mem.ckpt] ∧
  native Mem.saved !! "ckpt" = Some (Mem.w_bytes, Mem.b_bytes).
Proof. by vm_compute. Qed.

Example run_save_not_iterable :
  save_checkpoint (VInt 5) Mem.ckpt Mem.start = (inl TypeError, Mem.start).
Proof. reflexivity. Qed.

Example run_save_one_element :
  save_checkpoint (VTuple [VList []]) Mem.ckpt Mem.start =
  (inl ValueError, Mem.start).
Proof. reflexivity. Qed.

Example run_save_not_a_message :
  save_checkpoint (VTuple [VList [VRef 3]; VInt 3]) Mem.ckpt Mem.start =
  (inl AttributeError, Mem.start).
Proof. reflexivity. Qed.

Example run_save_first_failure_wins :
  save_checkpoint (VTuple [VList [VRef 1; VRef 3]; VInt 3]) Mem.ckpt Mem.start =
  (inl AttributeError, Mem.start).
Proof. reflexivity. Qed.

Example run_load_after_save :
  (load_checkpoint (VRef 3) Mem.ckpt Mem.saved).1 = inr VNone ∧
  trace (load_checkpoint (VRef 3) Mem.ckpt Mem.saved).2 =
    [SaveCall Mem.w_bytes Mem.b_bytes Mem.ckpt; LoadCall Mem.ckpt].
Proof. by vm_compute. Qed.

Example run_save_uninitialized :
  save_checkpoint Mem.params_uninitialized Mem.ckpt Mem.start =
  (inl (OtherError "EncodeError" "Message is missing required fields"), Mem.start).
Proof. reflexivity. Qed.

Example run_save_several :
  trace (save_checkpoint Mem.params3 Mem.ckpt Mem.start).2 =
  [SaveCall Mem.wbg_bytes Mem.gw_bytes Mem.ckpt].
Proof. by vm_compute. Qed.

Example run_save_iterators :
  (save_checkpoint Mem.params_iterators Mem.ckpt Mem.start).1 = inr VNone ∧
  trace (save_checkpoint Mem.params_iterators Mem.ckpt Mem.start).2 =
    [SaveCall Mem.wg_bytes Mem.b_bytes Mem.ckpt] ∧
  heap (save_checkpoint Mem.params_iterators Mem.ckpt Mem.start).2 !! 6%positive =
    Some (OIter [] None).
Proof. by vm_compute. Qed.

Example run_save_iterator_of_four :
  (save_checkpoint (VRef 8) Mem.ckpt Mem.start).1 = inl ValueError ∧
  heap (save_checkpoint (VRef 8) Mem.ckpt Mem.start).2 !! 8%positive =
    Some (OIter [VRef 3] None).
Proof. by vm_compute. Qed.

(** ** The theorems at these inputs *)

(** C2 as stated fails: [([w, m], [b])] is a pair of lists of messages,
    yet serializing [m], which is not initialized, raises [EncodeError]
    on line 18 and no native call is made. *)
Lemma messages_always_saved_fails :
  unpack_messages (heap Mem.start) Mem.params_uninitialized =
    Some (["w"; ""], ["b"]) ∧
  save_checkpoint Mem.params_uninitialized Mem.ckpt Mem.start =
    (inl (OtherError "EncodeError" "Message is missing required fields"),
     Mem.start) ∧
  ¬ @messages_always_saved Mem.runtime.
Proof.
  split_and!; [done..|].
  intros Hclaim.
  destruct (Hclaim Mem.params_uninitialized Mem.ckpt Mem.start ["w"; ""] ["b"])
    as (t & nt & Hrun); [done|].
  by apply trace_grows_ne in Hrun.
Qed.

Lemma save_checkpoint_serializes_then_delegates_witness :
  unpack_messages (heap Mem.start) Mem.params3 =
    Some (["w"; "b"; "g"], ["g"; "w"]) ∧
  mapM (serialization (RT := Mem.runtime)) ["w"; "b"; "g"] =
    Some [VBytes ["w"%byte]; VBytes ["b"%byte]; VBytes ["g"%byte]] ∧
  mapM (serialization (RT := Mem.runtime)) ["g"; "w"] =
    Some [VBytes ["g"%byte]; VBytes ["w"%byte]] ∧
  save_checkpoint Mem.params3 Mem.ckpt Mem.start =
    delegated Mem.wbg_bytes Mem.gw_bytes Mem.ckpt Mem.start ∧
  trace (save_checkpoint Mem.params3 Mem.ckpt Mem.start).2 =
    trace Mem.start ++ [SaveCall Mem.wbg_bytes Mem.gw_bytes Mem.ckpt].
Proof.
  do 3 (split; [reflexivity|]).
  apply (save_checkpoint_serializes_then_delegates
           Mem.params3 Mem.ckpt Mem.start ["w"; "b"; "g"] ["g"; "w"]);
    reflexivity.
Defined.



Lemma save_checkpoint_returns_None_witness :
  save_checkpoint Mem.params Mem.ckpt Mem.start = (inr VNone, Mem.saved) ∧
  VNone = VNone ∧
  Mem.params ≠ VNone ∧
  ∃ t nt r,
    _internal_save_checkpoint t nt Mem.ckpt (native Mem.start) =
      (inr r, native Mem.saved) ∧
    trace Mem.saved = trace Mem.start ++ [SaveCall t nt Mem.ckpt].
Proof.
  split; [reflexivity|].
  apply (save_checkpoint_returns_None Mem.params Mem.ckpt Mem.start).
  reflexivity.
Defined.

Lemma save_checkpoint_preserves_order_witness :
  elements_of Mem.params3 =
    Some [VList [VRef 1; VRef 2; VRef 4]; VList [VRef 4; VRef 1]] ∧
  elements_of (VList [VRef 1; VRef 2; VRef 4]) = Some [VRef 1; VRef 2; VRef 4] ∧
  elements_of (VList [VRef 4; VRef 1]) = Some [VRef 4; VRef 1] ∧
  trace (save_checkpoint Mem.params3 Mem.ckpt Mem.start).2 =
    trace Mem.start ++ [SaveCall Mem.wbg_bytes Mem.gw_bytes Mem.ckpt] ∧
  ∃ ts ns,
    Mem.wbg_bytes = VList ts ∧ Mem.gw_bytes = VList ns ∧ Mem.ckpt = Mem.ckpt ∧
    serialized_at (heap Mem.start) [VRef 1; VRef 2; VRef 4] ts ∧
    serialized_at (heap Mem.start) [VRef 4; VRef 1] ns.
Proof.
  do 4 (split; [reflexivity|]).
  apply (save_checkpoint_preserves_order Mem.params3 Mem.ckpt Mem.start
           (VList [VRef 1; VRef 2; VRef 4]) (VList [VRef 4; VRef 1])
           [VRef 1; VRef 2; VRef 4] [VRef 4; VRef 1]);
    reflexivity.
Defined.

Lemma load_checkpoint_propagates_witness :
  _internal_load_checkpoint Mem.ckpt (native Mem.start) =
    (inl (RuntimeError "checkpoint not found"), native Mem.start) ∧
  load_checkpoint (VRef 3) Mem.ckpt Mem.start =
    (inl (RuntimeError "checkpoint not found"),
     World (heap Mem.start) (native Mem.start)
       (trace Mem.start ++ [LoadCall Mem.ckpt])).
Proof.
  split; [reflexivity|].
  apply (load_checkpoint_propagates (VRef 3) Mem.ckpt Mem.start).
  reflexivity.
Defined.

Lemma load_checkpoint_returns_None_witness :
  _internal_load_checkpoint Mem.ckpt (native Mem.saved) =
    (inr (VTuple [Mem.w_bytes; Mem.b_bytes]), native Mem.saved) ∧
  load_checkpoint (VRef 3) Mem.ckpt Mem.saved =
    (inr VNone,
     World (heap Mem.saved) (native Mem.saved)
       (trace Mem.saved ++ [LoadCall Mem.ckpt])).
Proof.
  split; [reflexivity|].
  apply (load_checkpoint_returns_None (VRef 3) Mem.ckpt Mem.saved
           (VTuple [Mem.w_bytes; Mem.b_bytes])).
  reflexivity.
Defined.

(** * Further properties of the two functions *)

Section Outcomes.
Context `{RT : Runtime}.
Implicit Types (w : world) (v model path parameters : value) (e : exn).
Implicit Types (h : gmap loc object) (l : loc).

(** X1. [save_checkpoint] calls into the native layer at most once, with
    a save on the path it was given: either it raises with the call log
    and the native state as they were, or the log has grown by that one
    call and the native state is the one that call left. *)
Theorem save_checkpoint_at_most_one_call parameters path w :
  (trace (save_checkpoint parameters path w).2 = trace w ∧
   native (save_checkpoint parameters path w).2 = native w ∧
   ∃ e, (save_checkpoint parameters path w).1 = inl e) ∨
  (∃ t nt,
     trace (save_checkpoint parameters path w).2 =
       trace w ++ [SaveCall t nt path] ∧
     native (save_checkpoint parameters path w).2 =
       (_internal_save_checkpoint t nt path (native w)).2).
Proof.
  destruct (save_checkpoint_cases parameters path w)
    as (w1 & Hn & Ht & [[e ->]|[_ (t & nt & ->)]]).
  - left. simpl. eauto.
  - right. exists t, nt.
    by rewrite delegated_trace, delegated_native, Hn, Ht.
Qed.

(** X7. Empty parameter collections are not an error and do not skip the
    save: when both elements of [parameters] yield nothing, the native
    save is called on two empty lists, whatever the heap holds. *)
Theorem save_checkpoint_empty parameters path w (a b : value) :
  elements_of parameters = Some [a; b] →
  elements_of a = Some [] →
  elements_of b = Some [] →
  save_checkpoint parameters path w = delegated (VList []) (VList []) path w.
Proof.
  intros Hp Ha Hb. by rewrite (save_checkpoint_static _ _ _ _ _ _ _ Hp Ha Hb).
Qed.

(** X9. A [str] or [bytes] passed as [parameters] never reaches the
    native layer.  A [str] of two characters unpacks into two
    one-character strings, which have no [SerializeToString]; [bytes] of
    length two unpack into two integers, which are not iterable; any
    other length fails the unpacking. *)
Theorem save_checkpoint_text_rejected (s : string) (bs : bytes) path w :
  save_checkpoint (VStr s) path w =
    (inl (if decide (String.length s = 2) then AttributeError else ValueError), w) ∧
  save_checkpoint (VBytes bs) path w =
    (inl (if decide (length bs = 2) then TypeError else ValueError), w).
Proof.
  unfold save_checkpoint. cbn [is_None]. split.
  - rewrite Py_bind_run, (unpack2_static (VStr s) _ _ eq_refl).
    by destruct s as [|c1 [|c2 [|c3 s]]].
  - rewrite Py_bind_run, (unpack2_static (VBytes bs) _ _ eq_refl).
    by destruct bs as [|x1 [|x2 [|x3 bs]]].
Qed.

(** X10. [load_checkpoint] raises nothing of its own, whatever [model]
    and the path are: when it ends with an exception, the native load
    call, the one call it made, ended with that exception, and the heap
    is as it was. *)
Theorem load_checkpoint_raises_only_native model path w e w' :
  load_checkpoint model path w = (inl e, w') →
  _internal_load_checkpoint path (native w) = (inl e, native w') ∧
  heap w' = heap w ∧
  trace w' = trace w ++ [LoadCall path].
Proof.
  rewrite load_checkpoint_run.
  destruct (_internal_load_checkpoint path (native w)) as [[e'|r] n];
    [|discriminate].
  by intros [= <- <-].
Qed.

(** ** Containers that are not one-shot iterators *)

Lemma iterate_container v w :
  is_iterator (heap w) v = false →
  iterate v w =
  match elements_of v with
  | Some xs => (inr (Items xs), w)
  | None => (inl TypeError, w)
  end.
Proof.
  intros Hit. unfold iterate. destruct (elements_of v); [done|].
  destruct v; try done. by rewrite Hit.
Qed.

Lemma list_comp_container v w :
  is_iterator (heap w) v = false →
  list_comp call_SerializeToString v w =
  match elements_of v with
  | Some xs =>
      match serialize_items (heap w) xs with
      | inl e => (inl e, w)
      | inr ys => (inr (VList ys), w)
      end
  | None => (inl TypeError, w)
  end.
Proof.
  intros Hit. destruct (elements_of v) as [xs|] eqn:Hv.
  - by apply list_comp_static.
  - unfold list_comp. by rewrite Py_bind_run, (iterate_container _ _ Hit), Hv.
Qed.

(** X6. Only what the containers yield matters, not what kind of
    container they are: two [parameters] that unpack into elements
    yielding the same sequences (a tuple of lists, a list of tuples) are
    saved alike.  The elements are containers or not iterable at all;
    one-shot iterators, which a run uses up, are left out. *)
Theorem save_checkpoint_container_irrelevant
    parameters parameters' path w (a b a' b' : value) :
  elements_of parameters = Some [a; b] →
  elements_of parameters' = Some [a'; b'] →
  elements_of a = elements_of a' →
  elements_of b = elements_of b' →
  is_iterator (heap w) a = false →
  is_iterator (heap w) a' = false →
  is_iterator (heap w) b = false →
  is_iterator (heap w) b' = false →
  save_checkpoint parameters path w = save_checkpoint parameters' path w.
Proof.
  intros Hp Hp' Ha Hb Hia Hia' Hib Hib'. unfold save_checkpoint.
  rewrite (elements_of_not_None _ _ Hp), (elements_of_not_None _ _ Hp').
  rewrite !Py_bind_run, (unpack2_static _ _ _ Hp), (unpack2_static _ _ _ Hp').
  rewrite !Py_bind_run.
  rewrite (list_comp_container a _ Hia), (list_comp_container a' _ Hia'), Ha.
  destruct (elements_of a') as [xs|]; [|done].
  destruct (serialize_items (heap w) xs) as [e|ts]; [done|].
  rewrite !Py_bind_run.
  rewrite (list_comp_container b _ Hib), (list_comp_container b' _ Hib'), Hb.
  done.
Qed.

(** ** The first call that raises *)

Lemma serialize_items_app h (xs ys : list value) :
  serialize_items h (xs ++ ys) =
  match serialize_items h xs with
  | inl e => inl e
  | inr ts =>
      match serialize_items h ys with
      | inl e => inl e
      | inr ns => inr (ts ++ ns)
      end
  end.
Proof.
  induction xs as [|x xs IH]; simpl.
  - by destruct (serialize_items h ys).
  - destruct (call_result h x) as [e|y]; [done|]. rewrite IH.
    destruct (serialize_items h xs) as [e|ts]; [done|].
    by destruct (serialize_items h ys).
Qed.

Lemma serialize_items_first_failure h (pre post : list value) (x : value)
    (vs : list value) e :
  mapM (returned h) pre = Some vs →
  call_result h x = inl e →
  serialize_items h (pre ++ x :: post) = inl e.
Proof.
  intros Hpre%serialize_items_returned Hx.
  rewrite serialize_items_app, Hpre. simpl. by rewrite Hx.
Qed.

(** X5. The two lists are serialized in order, the trainable one first,
    and the first call that raises decides the outcome: when
    [SerializeToString] returns on every parameter before [x] and raises
    [e] on [x] ([AttributeError] when [x] has no such method, the
    serializer's exception otherwise), [save_checkpoint] raises [e],
    whatever comes after [x], and nothing is saved: no native call is
    made and the world is as it was. *)
Theorem save_checkpoint_first_failure
    parameters path w (a b : value) (xs ys pre post vs : list value)
    (x : value) e :
  elements_of parameters = Some [a; b] →
  elements_of a = Some xs →
  elements_of b = Some ys →
  xs ++ ys = pre ++ x :: post →
  mapM (returned (heap w)) pre = Some vs →
  call_result (heap w) x = inl e →
  save_checkpoint parameters path w = (inl e, w).
Proof.
  intros Hp Ha Hb Hsplit Hpre Hx.
  rewrite (save_checkpoint_static _ _ _ _ _ _ _ Hp Ha Hb).
  pose proof (serialize_items_first_failure _ _ post _ _ _ Hpre Hx) as Hfail.
  rewrite <- Hsplit, serialize_items_app in Hfail.
  destruct (serialize_items (heap w) xs) as [e'|ts]; [congruence|].
  destruct (serialize_items (heap w) ys) as [e'|ns]; congruence.
Qed.

(** X8. Saving two lists of messages leaves them as they were, so saving
    them again, to the same or another path, hands the native layer the
    same two lists of byte strings, whatever the first native call did or
    returned. *)
Theorem save_checkpoint_twice
    parameters path path' w (tms nms : list Msg) (ts ns : list value) :
  unpack_messages (heap w) parameters = Some (tms, nms) →
  mapM serialization tms = Some ts →
  mapM serialization nms = Some ns →
  trace (save_checkpoint parameters path'
           (save_checkpoint parameters path w).2).2 =
  trace w ++ [SaveCall (VList ts) (VList ns) path;
              SaveCall (VList ts) (VList ns) path'].
Proof.
  intros Hshape Hts Hns.
  rewrite (save_checkpoint_shaped _ path _ _ _ _ _ Hshape Hts Hns).
  rewrite (save_checkpoint_shaped _ path' _ tms nms ts ns)
    by (done || by rewrite delegated_heap).
  rewrite !delegated_trace. by rewrite <- app_assoc.
Qed.

(** ** One-shot iterators *)

Lemma set_object_twice l (o o' : object) w :
  set_object l o (set_object l o' w) = set_object l o w.
Proof. unfold set_object. simpl. by rewrite insert_insert_eq. Qed.

Lemma set_object_same l (o : object) w :
  heap w !! l = Some o → set_object l o w = w.
Proof.
  intros Hl. destruct w as [h n tr]. unfold set_object. simpl in *.
  by rewrite insert_id.
Qed.

Lemma trace_set_object l (o : object) w : trace (set_object l o w) = trace w.
Proof. reflexivity. Qed.

Lemma next_of_item l (x : value) (rest : list value) (stop : option exn) w :
  heap w !! l = Some (OIter (x :: rest) stop) →
  next_of l w = (inr (Some x), set_object l (OIter rest stop) w).
Proof. unfold next_of. by intros ->. Qed.

Lemma next_of_stopped l w :
  heap w !! l = Some (OIter [] None) → next_of l w = (inr None, w).
Proof. unfold next_of. by intros ->. Qed.

Lemma heap_set_object l (o : object) w : heap (set_object l o w) !! l = Some o.
Proof. apply lookup_insert_eq. Qed.

Lemma heap_set_object_other l l' (o : object) w :
  l ≠ l' → heap (set_object l o w) !! l' = heap w !! l'.
Proof. intros Hne. by apply lookup_insert_ne. Qed.

(** Advancing an iterator changes no message. *)
Lemma message_of_set_object h l (rest rest' : list value) (stop stop' : option exn) v :
  h !! l = Some (OIter rest stop) →
  message_of (<[l := OIter rest' stop']> h) v = message_of h v.
Proof.
  intros Hl. destruct v as [| | | | | |l0]; try done. simpl.
  destruct (decide (l = l0)) as [<-|Hne].
  - by rewrite lookup_insert_eq, Hl.
  - by rewrite lookup_insert_ne.
Qed.

Lemma serialize_items_set_object h l (rest rest' : list value)
    (stop stop' : option exn) (xs : list value) :
  h !! l = Some (OIter rest stop) →
  serialize_items (<[l := OIter rest' stop']> h) xs = serialize_items h xs.
Proof.
  intros Hl. induction xs as [|x xs IH]; [done|]. simpl.
  unfold call_result. by rewrite (message_of_set_object _ _ _ _ _ _ _ Hl), IH.
Qed.

Lemma drain_returns l (rest r0 ts : list value) (s0 : option exn) w :
  heap w !! l = Some (OIter r0 s0) →
  serialize_items (heap w) rest = inr ts →
  drain call_SerializeToString l None rest w =
  (inr ts, set_object l (OIter [] None) w).
Proof.
  revert r0 s0 ts w.
  induction rest as [|x rest IH]; intros r0 s0 ts w Hl; simpl.
  - by intros [= <-].
  - intros Hts. rewrite Py_bind_run, call_SerializeToString_run.
    replace (call_result (heap (set_object l (OIter rest None) w)) x)
      with (call_result (heap w) x)
      by (unfold call_result; simpl;
          by rewrite (message_of_set_object _ _ _ _ _ _ _ Hl)).
    destruct (call_result (heap w) x) as [e|y]; [done|].
    destruct (serialize_items (heap w) rest) as [e|ys] eqn:Hys; [done|].
    injection Hts as <-.
    rewrite Py_bind_run, (IH rest None ys).
    + by rewrite set_object_twice.
    + apply heap_set_object.
    + simpl. by rewrite (serialize_items_set_object _ _ _ _ _ _ _ Hl).
Qed.

Lemma list_comp_iterator l (rest ts : list value) w :
  heap w !! l = Some (OIter rest None) →
  serialize_items (heap w) rest = inr ts →
  list_comp call_SerializeToString (VRef l) w =
  (inr (VList ts), set_object l (OIter [] None) w).
Proof.
  intros Hl Hts. unfold list_comp, iterate. rewrite Py_bind_run. simpl.
  rewrite Hl, Py_bind_run, Hl.
  by rewrite (drain_returns _ _ _ _ _ _ Hl Hts).
Qed.

(** A pair of two distinct one-shot iterators of parameters that all
    serialize: the save goes through and leaves both iterators empty. *)
Lemma save_checkpoint_iterators l1 l2 (xs ys ts ns : list value) path w :
  l1 ≠ l2 →
  heap w !! l1 = Some (OIter xs None) →
  heap w !! l2 = Some (OIter ys None) →
  serialize_items (heap w) xs = inr ts →
  serialize_items (heap w) ys = inr ns →
  save_checkpoint (VTuple [VRef l1; VRef l2]) path w =
  delegated (VList ts) (VList ns) path
    (set_object l2 (OIter [] None) (set_object l1 (OIter [] None) w)).
Proof.
  intros Hne H1 H2 Hts Hns. unfold save_checkpoint. cbn [is_None].
  rewrite Py_bind_run, (unpack2_static (VTuple [VRef l1; VRef l2]) _ _ eq_refl).
  rewrite Py_bind_run, (list_comp_iterator _ _ _ _ H1 Hts).
  rewrite Py_bind_run, (list_comp_iterator l2 ys ns).
  - apply native_save_run.
  - by rewrite heap_set_object_other.
  - simpl. by rewrite (serialize_items_set_object _ _ _ _ _ _ _ H1).
Qed.

(** X11. One-shot iterators are used up.  When [parameters] is a pair of
    two distinct iterators over parameters that all serialize, the save
    hands the native layer their serializations, in order, and leaves
    both iterators empty; saving the same [parameters] again hands it two
    empty lists. *)
Theorem save_checkpoint_consumes_iterators
    l1 l2 (xs ys ts ns : list value) path path' w :
  l1 ≠ l2 →
  heap w !! l1 = Some (OIter xs None) →
  heap w !! l2 = Some (OIter ys None) →
  mapM (returned (heap w)) xs = Some ts →
  mapM (returned (heap w)) ys = Some ns →
  trace (save_checkpoint (VTuple [VRef l1; VRef l2]) path w).2 =
    trace w ++ [SaveCall (VList ts) (VList ns) path] ∧
  heap (save_checkpoint (VTuple [VRef l1; VRef l2]) path w).2 =
    <[l2 := OIter [] None]> (<[l1 := OIter [] None]> (heap w)) ∧
  trace (save_checkpoint (VTuple [VRef l1; VRef l2]) path'
           (save_checkpoint (VTuple [VRef l1; VRef l2]) path w).2).2 =
    trace w ++ [SaveCall (VList ts) (VList ns) path;
                SaveCall (VList []) (VList []) path'].
Proof.
  intros Hne H1 H2 Hts%serialize_items_returned Hns%serialize_items_returned.
  rewrite (save_checkpoint_iterators _ _ _ _ _ _ path _ Hne H1 H2 Hts Hns).
  split_and!.
  - by rewrite delegated_trace.
  - by rewrite delegated_heap.
  - rewrite (save_checkpoint_iterators l1 l2 [] [] [] [] path'); try done.
    + rewrite delegated_trace, !trace_set_object.
      rewrite delegated_trace, !trace_set_object. by rewrite <- app_assoc.
    + rewrite delegated_heap. simpl.
      by rewrite lookup_insert_ne, lookup_insert_eq.
    + rewrite delegated_heap. simpl. by rewrite lookup_insert_eq.
Qed.

(** X3. Unpacking uses up to three items of a one-shot iterator.  When
    [parameters] is an iterator that does not hold exactly two items,
    [save_checkpoint] raises [ValueError] with no native call, and the
    iterator has lost its first three items (all of them when it held
    fewer). *)
Theorem save_checkpoint_iterator_arity l (rest : list value) path w :
  heap w !! l = Some (OIter rest None) →
  length rest ≠ 2 →
  save_checkpoint (VRef l) path w =
  (inl ValueError, set_object l (OIter (drop 3 rest) None) w).
Proof.
  intros Hl Hlen. unfold save_checkpoint, unpack2, iterate. cbn [is_None].
  rewrite !Py_bind_run. simpl. rewrite Hl.
  destruct rest as [|x [|y [|z rest]]]; [| |done|].
  - rewrite Py_bind_run, (next_of_stopped _ _ Hl). simpl.
    by rewrite (set_object_same _ _ _ Hl).
  - rewrite Py_bind_run, (next_of_item _ _ _ _ _ Hl).
    rewrite Py_bind_run, next_of_stopped; [done|apply heap_set_object].
  - rewrite Py_bind_run, (next_of_item _ _ _ _ _ Hl).
    rewrite Py_bind_run, (next_of_item l y (z :: rest) None)
      by apply heap_set_object.
    rewrite Py_bind_run, (next_of_item l z rest None)
      by apply heap_set_object.
    simpl. by rewrite !set_object_twice.
Qed.

End Outcomes.

(** ** These properties on the in-memory runtime *)

Lemma save_checkpoint_iterator_arity_witness :
  heap Mem.start !! 8%positive =
    Some (OIter [VRef 1; VRef 2; VRef 4; VRef 3] None) ∧
  length [VRef 1; VRef 2; VRef 4; VRef 3] ≠ 2 ∧
  save_checkpoint (VRef 8) Mem.ckpt Mem.start =
    (inl ValueError, set_object 8%positive (OIter [VRef 3] None) Mem.start).
Proof.
  split; [reflexivity|]. split; [simpl; lia|].
  apply (save_checkpoint_iterator_arity 8%positive [VRef 1; VRef 2; VRef 4; VRef 3]
           Mem.ckpt Mem.start);
    [reflexivity | simpl; lia].
Defined.

Lemma save_checkpoint_first_failure_witness :
  elements_of (VTuple [VList [VRef 1; VRef 4]; VList [VRef 2; VRef 5; VRef 3]]) =
    Some [VList [VRef 1; VRef 4]; VList [VRef 2; VRef 5; VRef 3]] ∧
  elements_of (VList [VRef 1; VRef 4]) = Some [VRef 1; VRef 4] ∧
  elements_of (VList [VRef 2; VRef 5; VRef 3]) = Some [VRef 2; VRef 5; VRef 3] ∧
  [VRef 1; VRef 4] ++ [VRef 2; VRef 5; VRef 3] =
    [VRef 1; VRef 4; VRef 2] ++ VRef 5 :: [VRef 3] ∧
  mapM (returned (heap Mem.start)) [VRef 1; VRef 4; VRef 2] =
    Some [VBytes ["w"%byte]; VBytes ["g"%byte]; VBytes ["b"%byte]] ∧
  call_result (heap Mem.start) (VRef 5) =
    inl (OtherError "EncodeError" "Message is missing required fields") ∧
  save_checkpoint
    (VTuple [VList [VRef 1; VRef 4]; VList [VRef 2; VRef 5; VRef 3]])
    Mem.ckpt Mem.start =
    (inl (OtherError "EncodeError" "Message is missing required fields"),
     Mem.start).
Proof.
  do 6 (split; [reflexivity|]).
  apply (save_checkpoint_first_failure
           (VTuple [VList [VRef 1; VRef 4]; VList [VRef 2; VRef 5; VRef 3]])
           Mem.ckpt Mem.start
           (VList [VRef 1; VRef 4]) (VList [VRef 2; VRef 5; VRef 3])
           [VRef 1; VRef 4] [VRef 2; VRef 5; VRef 3]
           [VRef 1; VRef 4; VRef 2] [VRef 3]
           [VBytes ["w"%byte]; VBytes ["g"%byte]; VBytes ["b"%byte]]
           (VRef 5));
    reflexivity.
Defined.

Lemma save_checkpoint_container_irrelevant_witness :
  elements_of Mem.params3 =
    Some [VList [VRef 1; VRef 2; VRef 4]; VList [VRef 4; VRef 1]] ∧
  elements_of (VList [VTuple [VRef 1; VRef 2; VRef 4]; VTuple [VRef 4; VRef 1]]) =
    Some [VTuple [VRef 1; VRef 2; VRef 4]; VTuple [VRef 4; VRef 1]] ∧
  elements_of (VList [VRef 1; VRef 2; VRef 4]) =
    elements_of (VTuple [VRef 1; VRef 2; VRef 4]) ∧
  elements_of (VList [VRef 4; VRef 1]) = elements_of (VTuple [VRef 4; VRef 1]) ∧
  is_iterator (heap Mem.start) (VList [VRef 1; VRef 2; VRef 4]) = false ∧
  is_iterator (heap Mem.start) (VTuple [VRef 1; VRef 2; VRef 4]) = false ∧
  is_iterator (heap Mem.start) (VList [VRef 4; VRef 1]) = false ∧
  is_iterator (heap Mem.start) (VTuple [VRef 4; VRef 1]) = false ∧
  save_checkpoint Mem.params3 Mem.ckpt Mem.start =
    save_checkpoint
      (VList [VTuple [VRef 1; VRef 2; VRef 4]; VTuple [VRef 4; VRef 1]])
      Mem.ckpt Mem.start.
Proof.
  do 8 (split; [reflexivity|]).
  apply (save_checkpoint_container_irrelevant
           Mem.params3
           (VList [VTuple [VRef 1; VRef 2; VRef 4]; VTuple [VRef 4; VRef 1]])
           Mem.ckpt Mem.start
           (VList [VRef 1; VRef 2; VRef 4]) (VList [VRef 4; VRef 1])
           (VTuple [VRef 1; VRef 2; VRef 4]) (VTuple [VRef 4; VRef 1]));
    reflexivity.
Defined.

Lemma save_checkpoint_empty_witness :
  elements_of (VTuple [VStr ""; VBytes []]) = Some [VStr ""; VBytes []] ∧
  elements_of (VStr "") = Some [] ∧
  elements_of (VBytes []) = Some [] ∧
  save_checkpoint (VTuple [VStr ""; VBytes []]) Mem.ckpt Mem.start =
    delegated (VList []) (VList []) Mem.ckpt Mem.start.
Proof.
  do 3 (split; [reflexivity|]).
  apply (save_checkpoint_empty (VTuple [VStr ""; VBytes []]) Mem.ckpt Mem.start
           (VStr "") (VBytes []));
    reflexivity.
Defined.

Lemma save_checkpoint_twice_witness :
  unpack_messages (heap Mem.start) Mem.params3 =
    Some (["w"; "b"; "g"], ["g"; "w"]) ∧
  mapM (serialization (RT := Mem.runtime)) ["w"; "b"; "g"] =
    Some [VBytes ["w"%byte]; VBytes ["b"%byte]; VBytes ["g"%byte]] ∧
  mapM (serialization (RT := Mem.runtime)) ["g"; "w"] =
    Some [VBytes ["g"%byte]; VBytes ["w"%byte]] ∧
  trace (save_checkpoint Mem.params3 (VStr "other")
           (save_checkpoint Mem.params3 Mem.ckpt Mem.start).2).2 =
  trace Mem.start ++ [SaveCall Mem.wbg_bytes Mem.gw_bytes Mem.ckpt;
                      SaveCall Mem.wbg_bytes Mem.gw_bytes (VStr "other")].
Proof.
  do 3 (split; [reflexivity|]).
  apply (save_checkpoint_twice Mem.params3 Mem.ckpt (VStr "other") Mem.start
           ["w"; "b"; "g"] ["g"; "w"]);
    reflexivity.
Defined.

Lemma load_checkpoint_raises_only_native_witness :
  load_checkpoint VNone Mem.ckpt Mem.start =
    (inl (RuntimeError "checkpoint not found"),
     World (heap Mem.start) (native Mem.start) [LoadCall Mem.ckpt]) ∧
  _internal_load_checkpoint Mem.ckpt (native Mem.start) =
    (inl (RuntimeError "checkpoint not found"), native Mem.start) ∧
  heap Mem.start = heap Mem.start ∧
  [LoadCall Mem.ckpt] = trace Mem.start ++ [LoadCall Mem.ckpt].
Proof.
  split; [reflexivity|].
  apply (load_checkpoint_raises_only_native VNone Mem.ckpt Mem.start
           (RuntimeError "checkpoint not found")
           (World (heap Mem.start) (native Mem.start) [LoadCall Mem.ckpt])).
  reflexivity.
Defined.

Lemma save_checkpoint_consumes_iterators_witness :
  6%positive ≠ 7%positive ∧
  heap Mem.start !! 6%positive = Some (OIter [VRef 1; VRef 4] None) ∧
  heap Mem.start !! 7%positive = Some (OIter [VRef 2] None) ∧
  mapM (returned (heap Mem.start)) [VRef 1; VRef 4] =
    Some [VBytes ["w"%byte]; VBytes ["g"%byte]] ∧
  mapM (returned (heap Mem.start)) [VRef 2] = Some [VBytes ["b"%byte]] ∧
  trace (save_checkpoint Mem.params_iterators Mem.ckpt Mem.start).2 =
    trace Mem.start ++ [SaveCall Mem.wg_bytes Mem.b_bytes Mem.ckpt] ∧
  heap (save_checkpoint Mem.params_iterators Mem.ckpt Mem.start).2 =
    <[7%positive := OIter [] None]>
      (<[6%positive := OIter [] None]> (heap Mem.start)) ∧
  trace (save_checkpoint Mem.params_iterators (VStr "other")
           (save_checkpoint Mem.params_iterators Mem.ckpt Mem.start).2).2 =
    trace Mem.start ++ [SaveCall Mem.wg_bytes Mem.b_bytes Mem.ckpt;
                        SaveCall (VList []) (VList []) (VStr "other")].
Proof.
  split; [discriminate|]. do 4 (split; [reflexivity|]).
  apply (save_checkpoint_consumes_iterators 6%positive 7%positive
           [VRef 1; VRef 4] [VRef 2]
           [VBytes ["w"%byte]; VBytes ["g"%byte]] [VBytes ["b"%byte]]
           Mem.ckpt (VStr "other") Mem.start);
    [discriminate | reflexivity..].
Defined.
